(** * The shopping-cart store of [CartProvider.tsx]

    A shallow embedding of the React provider
    [src/components/shop/CartProvider.tsx]: the cart state, the operations
    exposed through the context ([addToCart], [removeFromCart],
    [updateQuantity], [clearCart], [setIsCartOpen]), the derived totals and
    the two effects that load the cart from [localStorage] and store it
    there.

    - A TypeScript [number] is an IEEE 754 binary64 value: Rocq's primitive
      [float], with its own [+], [*] and [<=].
    - The provider's [useState] cells, the browser's [localStorage] and the
      console form one [World]; every function of the source is a
      computation in the monad [M] that threads the world and may throw.
    - [JSON.parse] and [JSON.stringify] belong to the JavaScript platform and
      are parameters of the effects that call them. *)

From Stdlib Require Import ZArith List Ascii String Floats Lia Bool.
From stdpp Require Import base option list strings gmap.
Import ListNotations.

#[local] Set Warnings "-register-all".

(** ** Numbers and strings *)

Definition number : Type := float.

(** [Number.isInteger]: a finite value [m * 2^e] without fractional part. *)
Definition Number_isInteger (x : number) : bool :=
  match Prim2SF x with
  | S754_zero _ => true
  | S754_finite _ m e => (0 <=? e)%Z || (Z.pos m mod 2 ^ (- e) =? 0)%Z
  | _ => false
  end.

(** [Number.isNaN]: NaN is the only number that is not equal to itself. *)
Definition Number_isNaN (x : number) : bool := negb (x =? x)%float.

(** A positive integer, as the data model of the cart asks of a quantity. *)
Definition is_positive_integer (x : number) : bool :=
  (0 <? x)%float && Number_isInteger x.

(** What JSON can carry unchanged: a finite number other than [-0]. *)
Definition JSON_exact (x : number) : bool :=
  match classify x with
  | NaN | PInf | NInf | NZero => false
  | _ => true
  end.

(** A binary64 value that is finite and positive, or [+infinity]. *)
Definition positive_result (s : spec_float) : Prop :=
  (exists m e, s = S754_finite false m e) \/ s = S754_infinity false.

(** Truthiness of a string: only the empty string is falsy. *)
Definition truthy (s : string) : bool := negb (s =? "")%string.

(** ** Data model *)

Record CartItem : Type := mkCartItem {
  id : string;
  name : string;
  price : number;
  description : string;
  image : option string;
  quantity : number
}.

(** [Omit<CartItem, 'quantity'>], the argument of [addToCart]. *)
Module Product.
Record t : Type := mk {
  id : string;
  name : string;
  price : number;
  description : string;
  image : option string
}.
End Product.

(** [{ ...item, quantity: q }] *)
Definition with_quantity (item : CartItem) (q : number) : CartItem :=
  {| id := id item; name := name item; price := price item;
     description := description item; image := image item; quantity := q |}.

(** [{ ...product, quantity: q }] *)
Definition item_of_product (product : Product.t) (q : number) : CartItem :=
  {| id := Product.id product; name := Product.name product;
     price := Product.price product;
     description := Product.description product;
     image := Product.image product; quantity := q |}.

(** ** JavaScript values, as [JSON.parse] returns them *)

Inductive jsvalue : Type :=
  | JNull
  | JBool (b : bool)
  | JNumber (n : number)
  | JString (s : string)
  | JArray (elements : list jsvalue)
  | JObject (fields : list (string * jsvalue)).

Definition Array_isArray (v : jsvalue) : bool :=
  match v with JArray _ => true | _ => false end.

(** The run-time value of a cart entry and of a cart; an absent [image] is
    an absent property. *)
Definition item_value (item : CartItem) : jsvalue :=
  JObject
    ([("id", JString (id item)); ("name", JString (name item));
      ("price", JNumber (price item));
      ("description", JString (description item))]
     ++ match image item with
        | Some src => [("image", JString src)]
        | None => []
        end
     ++ [("quantity", JNumber (quantity item))]).

Definition cart_value (cart : list CartItem) : jsvalue :=
  JArray (map item_value cart).

(** Property lookup [o.k] on the fields of an object. *)
Fixpoint get_field (k : string) (fields : list (string * jsvalue))
  : option jsvalue :=
  match fields with
  | [] => None
  | (k', v) :: rest => if (k' =? k)%string then Some v else get_field k rest
  end.

(** The typed reading of a decoded value: the [CartItem] it is, when it has
    that shape. TypeScript does not check the cast of [JSON.parse]'s result
    to [CartItem[]]; a value of another shape has no reading here. *)
Definition as_CartItem (v : jsvalue) : option CartItem :=
  match v with
  | JObject fs =>
      match get_field "id" fs, get_field "name" fs, get_field "price" fs,
            get_field "description" fs, get_field "quantity" fs with
      | Some (JString i), Some (JString n), Some (JNumber p),
        Some (JString d), Some (JNumber q) =>
          match get_field "image" fs with
          | None => Some (mkCartItem i n p d None q)
          | Some (JString src) => Some (mkCartItem i n p d (Some src) q)
          | Some _ => None
          end
      | _, _, _, _, _ => None
      end
  | _ => None
  end.

Fixpoint as_CartItems (vs : list jsvalue) : option (list CartItem) :=
  match vs with
  | [] => Some []
  | v :: rest =>
      match as_CartItem v, as_CartItems rest with
      | Some item, Some items => Some (item :: items)
      | _, _ => None
      end
  end.

Definition as_Cart (v : jsvalue) : option (list CartItem) :=
  match v with JArray vs => as_CartItems vs | _ => None end.

(** Modelled from ECMAScript (the JSON object is the platform's, not code of
    this repository): the value [JSON.parse(JSON.stringify(v))] of a tree of
    arrays, objects, strings, booleans, numbers and null. The JSON text has
    no NaN and no infinity, [JSON.stringify] writes them as [null]; [-0] is
    written as [0]; every other number is read back exactly. *)
Definition JSON_number (n : number) : jsvalue :=
  match classify n with
  | NaN | PInf | NInf => JNull
  | NZero => JNumber 0%float
  | _ => JNumber n
  end.

Fixpoint JSON_clone (v : jsvalue) : jsvalue :=
  match v with
  | JNumber n => JSON_number n
  | JArray vs => JArray (map JSON_clone vs)
  | JObject fs => JObject (map (fun kv => (fst kv, JSON_clone (snd kv))) fs)
  | _ => v
  end.

(** ** The world: React state, local storage, console *)

Inductive exn : Type :=
  | SyntaxError
  | ReferenceError
  | DOMException (operation : string).

(** The cart cell holds an array of entries of type [E]. TypeScript types
    it [CartItem[]], and that is how the operations of the provider see it:
    [World]. At run time it is an array of values, whatever they are:
    [WorldOf jsvalue]; the two effects, which never look inside an entry,
    are given on both. *)
Record WorldOf (E : Type) : Type := mkWorld {
  cart : list E;
  isCartOpen : bool;
  loaded : bool;
  localStorage : gmap string string;
  console : list (string * option exn)
}.
Arguments mkWorld {E} cart isCartOpen loaded localStorage console.
Arguments cart {E} w.
Arguments isCartOpen {E} w.
Arguments loaded {E} w.
Arguments localStorage {E} w.
Arguments console {E} w.

Abbreviation World := (WorldOf CartItem).

(** The state of a provider before its first render, over a given storage. *)
Definition initial {E : Type} (storage : gmap string string) : WorldOf E :=
  mkWorld [] false false storage [].

(** The environment the provider runs in: whether there is a [window], and
    which operations of the storage backend throw (quota exceeded, storage
    disabled). An operation that throws leaves the storage as it was. *)
Record Env : Type := mkEnv {
  has_window : bool;
  getItem_throws : bool;
  setItem_throws : bool;
  removeItem_throws : bool
}.

Definition browser : Env := mkEnv true false false false.

(** ** Computations: state passing with exceptions *)

Inductive outcome (A : Type) : Type :=
  | Normal (a : A)
  | Throws (e : exn)
  | IllTyped.
Arguments Normal {A} a.
Arguments Throws {A} e.
Arguments IllTyped {A}.

Definition MOf (E A : Type) : Type := WorldOf E -> outcome A * WorldOf E.

Abbreviation M := (MOf CartItem).

Definition ret {E A : Type} (a : A) : MOf E A := fun w => (Normal a, w).

Definition bind {E A B : Type} (m : MOf E A) (k : A -> MOf E B) : MOf E B :=
  fun w =>
    match m w with
    | (Normal a, w') => k a w'
    | (Throws e, w') => (Throws e, w')
    | (IllTyped, w') => (IllTyped, w')
    end.

Definition throw {E A : Type} (e : exn) : MOf E A := fun w => (Throws e, w).

(** [try { body } catch (err) { handler err }] *)
Definition try_catch {E A : Type} (body : MOf E A) (handler : exn -> MOf E A)
  : MOf E A :=
  fun w =>
    match body w with
    | (Throws e, w') => handler e w'
    | r => r
    end.

(** [try { body } finally { finalizer }]: the finalizer always runs; when it
    completes normally the outcome is the body's. *)
Definition try_finally {E A : Type} (body : MOf E A) (finalizer : MOf E unit)
  : MOf E A :=
  fun w =>
    let '(r, w1) := body w in
    match finalizer w1 with
    | (Normal _, w2) => (r, w2)
    | (Throws e, w2) => (Throws e, w2)
    | (IllTyped, w2) => (IllTyped, w2)
    end.

Declare Scope js_scope.
Delimit Scope js_scope with js.
Notation "x ← m ; k" := (bind m (fun x => k))
  (at level 20, m at level 100, k at level 200, only parsing) : js_scope.
Notation "m ;; k" := (bind m (fun _ => k))
  (at level 100, k at level 200, right associativity) : js_scope.

(** [console.error(message, err)] *)
Definition console_error {E : Type} (message : string) (err : option exn)
  : MOf E unit :=
  fun w =>
    (Normal tt,
     mkWorld (cart w) (isCartOpen w) (loaded w) (localStorage w)
       (console w ++ [(message, err)])).

(** [setCart(updater)], [setIsCartOpen(b)], [setLoaded(b)]: the state
    setters of [useState]. [setCart(value)] is [setCart (fun _ => value)]. *)
Definition setCart {E : Type} (updater : list E -> list E) : MOf E unit :=
  fun w =>
    (Normal tt,
     mkWorld (updater (cart w)) (isCartOpen w) (loaded w) (localStorage w)
       (console w)).

Definition setIsCartOpen {E : Type} (isOpen : bool) : MOf E unit :=
  fun w =>
    (Normal tt,
     mkWorld (cart w) isOpen (loaded w) (localStorage w) (console w)).

Definition setLoaded {E : Type} (b : bool) : MOf E unit :=
  fun w =>
    (Normal tt,
     mkWorld (cart w) (isCartOpen w) b (localStorage w) (console w)).

Definition set_localStorage {E : Type} (s : gmap string string) (w : WorldOf E)
  : WorldOf E :=
  mkWorld (cart w) (isCartOpen w) (loaded w) s (console w).

(** ** Derived totals *)

(** [Array.prototype.reduce] with an initial value. *)
Definition reduce {A B : Type} (f : B -> A -> B) (init : B) (l : list A) : B :=
  fold_left f l init.

Definition totalItems (cart : list CartItem) : number :=
  reduce (fun total item => (total + quantity item)%float) 0%float cart.

Definition totalPrice (cart : list CartItem) : number :=
  reduce (fun total item => (total + price item * quantity item)%float)
    0%float cart.

(** The sum of a sequence of numbers, taken in order from 0: the reading of
    "the sum over all entries" in the arithmetic of [number]. *)
Fixpoint sum_from (acc : number) (xs : list number) : number :=
  match xs with
  | [] => acc
  | x :: rest => sum_from (acc + x)%float rest
  end.

Definition sum (xs : list number) : number := sum_from 0%float xs.

(** ** Array helpers *)

(** [Array.prototype.findIndex]: the index of the first element that
    satisfies the predicate, [-1] when there is none. *)
Fixpoint findIndex_from {A : Type} (pred : A -> bool) (l : list A) (i : Z) : Z :=
  match l with
  | [] => (-1)%Z
  | x :: rest => if pred x then i else findIndex_from pred rest (i + 1)%Z
  end.

Definition findIndex {A : Type} (pred : A -> bool) (l : list A) : Z :=
  findIndex_from pred l 0%Z.

(** ** The platform: [window], [localStorage], [JSON.parse] *)

Section Platform.

Context {E : Type}.
Variable env : Env.
Variable JSON_parse : string -> option jsvalue.

(** [typeof window === 'undefined'] *)
Definition window_undefined : bool := negb (has_window env).

(** The [Storage] methods on [localStorage]. Without a [window] the name
    [localStorage] is unbound. *)
Definition localStorage_getItem (key : string) : MOf E (option string) :=
  fun w =>
    if window_undefined then (Throws ReferenceError, w)
    else if getItem_throws env then (Throws (DOMException "getItem"), w)
    else (Normal (localStorage w !! key), w).

Definition localStorage_setItem (key value : string) : MOf E unit :=
  fun w =>
    if window_undefined then (Throws ReferenceError, w)
    else if setItem_throws env then (Throws (DOMException "setItem"), w)
    else (Normal tt, set_localStorage (<[key := value]> (localStorage w)) w).

Definition localStorage_removeItem (key : string) : MOf E unit :=
  fun w =>
    if window_undefined then (Throws ReferenceError, w)
    else if removeItem_throws env then (Throws (DOMException "removeItem"), w)
    else (Normal tt, set_localStorage (delete key (localStorage w)) w).

(** [JSON.parse(text)]: a [SyntaxError] on text that is not JSON. *)
Definition parse (text : string) : MOf E jsvalue :=
  match JSON_parse text with
  | Some v => ret v
  | None => throw SyntaxError
  end.

End Platform.

(** ** The provider *)

Section CartProvider.

Variable env : Env.
Variable JSON_parse : string -> option jsvalue.
Variable JSON_stringify : jsvalue -> string.

Local Open Scope js_scope.

(** [setCart(parsedCart)] on a decoded array, in the typed state: the array
    becomes the cart. An array that is not a [CartItem[]] cannot be held by
    a [World]; the outcome [IllTyped] says that the typed state ends
    here. What the code does then is told by [hydration_effect_untyped]
    below, on the run-time state. *)
Definition setCart_parsed (parsedCart : jsvalue) : M unit :=
  match as_Cart parsedCart with
  | Some items => setCart (fun _ => items)
  | None => fun w => (IllTyped, w)
  end.

(** The first effect: load the cart from [localStorage] (lines 42-70). *)
Definition hydration_effect : M unit :=
  if window_undefined env then ret tt
  else
    try_finally
      (try_catch
         (savedCart ← localStorage_getItem env "cart";
          match savedCart with
          | Some text =>
              if truthy text then
                parsedCart ← parse JSON_parse text;
                if Array_isArray parsedCart then setCart_parsed parsedCart
                else
                  console_error
                    "Ungültiges Warenkorb-Format im localStorage, verwende leeren Warenkorb"
                    None ;;
                  setCart (fun _ => []) ;;
                  localStorage_removeItem env "cart"
              else ret tt
          | None => ret tt
          end)
         (fun err =>
            console_error "Fehler beim Laden des Warenkorbs:" (Some err) ;;
            try_catch (localStorage_removeItem env "cart")
              (fun clearErr =>
                 console_error "Fehler beim Zurücksetzen des localStorage:"
                   (Some clearErr))))
      (setLoaded true).

(** The second effect: store the cart when it changes (lines 73-81). *)
Definition persist_effect : M unit :=
  fun w =>
    if negb (loaded w) || window_undefined env then ret tt w
    else
      try_catch
        (localStorage_setItem env "cart" (JSON_stringify (cart_value (cart w))))
        (fun err =>
           console_error "Fehler beim Speichern des Warenkorbs:" (Some err))
        w.

(** [addToCart(product)] (lines 93-120); an absent product is [None]. The
    index read in the first branch comes from [findIndex] and is in range
    ([addToCart_existing] below), so the [None] case of the read does not
    arise. *)
Definition addToCart (product : option Product.t) : M unit :=
  match product with
  | None =>
      console_error "Ungültiges Produkt beim Hinzufügen zum Warenkorb" None
  | Some product =>
      if negb (truthy (Product.id product)) then
        console_error "Ungültiges Produkt beim Hinzufügen zum Warenkorb" None
      else
        setCart (fun prevCart =>
          let existingItemIndex :=
            findIndex (fun item => (id item =? Product.id product)%string)
              prevCart in
          if negb (existingItemIndex =? -1)%Z then
            let updatedCart := prevCart in
            match updatedCart !! Z.to_nat existingItemIndex with
            | Some existing =>
                <[Z.to_nat existingItemIndex :=
                    with_quantity existing (quantity existing + 1)%float]>
                  updatedCart
            | None => updatedCart
            end
          else prevCart ++ [item_of_product product 1%float]) ;;
        setIsCartOpen true
  end.

(** [removeFromCart(id)] (lines 123-126) *)
Definition removeFromCart (k : string) : M unit :=
  if negb (truthy k) then ret tt
  else
    setCart (fun prevCart =>
      List.filter (fun item => negb (id item =? k)%string) prevCart).

(** [updateQuantity(id, quantity)] (lines 129-142) *)
Definition updateQuantity (k : string) (q : number) : M unit :=
  if negb (truthy k) then ret tt
  else if (q <=? 0)%float then removeFromCart k
  else
    setCart (fun prevCart =>
      map (fun item =>
             if (id item =? k)%string then with_quantity item q else item)
        prevCart).

(** [clearCart()] (lines 145-152) *)
Definition clearCart : M unit :=
  setCart (fun _ => []) ;;
  try_catch (localStorage_removeItem env "cart")
    (fun err =>
       console_error
         "Fehler beim Löschen des Warenkorbs aus dem localStorage:"
         (Some err)).

(** The operations the context exposes, and a sequence of calls to them. *)
Inductive call : Type :=
  | AddToCart (product : option Product.t)
  | RemoveFromCart (k : string)
  | UpdateQuantity (k : string) (q : number)
  | ClearCart
  | SetIsCartOpen (isOpen : bool).

Definition perform (c : call) : M unit :=
  match c with
  | AddToCart product => addToCart product
  | RemoveFromCart k => removeFromCart k
  | UpdateQuantity k q => updateQuantity k q
  | ClearCart => clearCart
  | SetIsCartOpen isOpen => setIsCartOpen isOpen
  end.

Fixpoint run (calls : list call) : M unit :=
  match calls with
  | [] => ret tt
  | c :: rest => perform c ;; run rest
  end.

(** ** The effects on the run-time state

    The cart that [setCart(parsedCart)] installs is whatever array
    [JSON.parse] returned, and [JSON.stringify(cart)] encodes whatever array
    the cart is: here are the two effects on the state whose cart is an
    array of values. [Array.isArray(parsedCart)] and the use of the array
    are one [match]. *)

(** The first effect (lines 42-70). *)
Definition hydration_effect_untyped : MOf jsvalue unit :=
  if window_undefined env then ret tt
  else
    try_finally
      (try_catch
         (savedCart ← localStorage_getItem env "cart";
          match savedCart with
          | Some text =>
              if truthy text then
                parsedCart ← parse JSON_parse text;
                match parsedCart with
                | JArray elements => setCart (fun _ => elements)
                | _ =>
                    console_error
                      "Ungültiges Warenkorb-Format im localStorage, verwende leeren Warenkorb"
                      None ;;
                    setCart (fun _ => []) ;;
                    localStorage_removeItem env "cart"
                end
              else ret tt
          | None => ret tt
          end)
         (fun err =>
            console_error "Fehler beim Laden des Warenkorbs:" (Some err) ;;
            try_catch (localStorage_removeItem env "cart")
              (fun clearErr =>
                 console_error "Fehler beim Zurücksetzen des localStorage:"
                   (Some clearErr))))
      (setLoaded true).



End CartProvider.

(** ** Well-formed carts and sample data *)

(** No two entries share an id. *)
Definition unique_ids (c : list CartItem) : Prop := NoDup (map id c).

(** No entry has a quantity [q] for which the source's test [q <= 0]
    succeeds. *)
Definition no_quantity_le_zero (c : list CartItem) : Prop :=
  Forall (fun item => (quantity item <=? 0)%float = false) c.

Definition shirt : Product.t :=
  Product.mk "p1" "Shirt" 20%float "A cotton shirt" None.

Definition mug : Product.t :=
  Product.mk "p2" "Mug" 5%float "A coffee mug" (Some "/img/mug.png"%string).

(** A codec that knows one text and the value it stands for: as much of
    [JSON] as running the effects on that one value takes. *)
Definition stringify_as (text : string) : jsvalue -> string := fun _ => text.

Definition parse_as (text : string) (v : jsvalue) : string -> option jsvalue :=
  fun s => if (s =? text)%string then Some v else None.

(** A parser for which no text is JSON. *)
Definition parse_nothing : string -> option jsvalue := fun _ => None.

Definition sample_cart : list CartItem :=
  [item_of_product shirt 2%float; item_of_product mug 1%float].

(** A product whose price is NaN (the value of [parseFloat] on text that
    is no number, say), and the cart that holds one of it. *)
Definition unpriced : Product.t :=
  Product.mk "p1" "Shirt" nan "A cotton shirt" None.

Definition nan_cart : list CartItem := [item_of_product unpriced 1%float].

(** The texts [JSON.stringify] gives for the two carts; [quoted s] is [s]
    between double quotes. *)
Definition quoted (s : string) : string :=
  String "034"%char (s +:+ String "034"%char EmptyString).

Definition sample_text : string :=
  "[{" +:+ quoted "id" +:+ ":" +:+ quoted "p1" +:+ ","
    +:+ quoted "name" +:+ ":" +:+ quoted "Shirt" +:+ ","
    +:+ quoted "price" +:+ ":20,"
    +:+ quoted "description" +:+ ":" +:+ quoted "A cotton shirt" +:+ ","
    +:+ quoted "quantity" +:+ ":2},{"
    +:+ quoted "id" +:+ ":" +:+ quoted "p2" +:+ ","
    +:+ quoted "name" +:+ ":" +:+ quoted "Mug" +:+ ","
    +:+ quoted "price" +:+ ":5,"
    +:+ quoted "description" +:+ ":" +:+ quoted "A coffee mug" +:+ ","
    +:+ quoted "image" +:+ ":" +:+ quoted "/img/mug.png" +:+ ","
    +:+ quoted "quantity" +:+ ":1}]".

Definition nan_text : string :=
  "[{" +:+ quoted "id" +:+ ":" +:+ quoted "p1" +:+ ","
    +:+ quoted "name" +:+ ":" +:+ quoted "Shirt" +:+ ","
    +:+ quoted "price" +:+ ":null,"
    +:+ quoted "description" +:+ ":" +:+ quoted "A cotton shirt" +:+ ","
    +:+ quoted "quantity" +:+ ":1}]".

(** * Properties *)

(** ** Arithmetic of [number]: adding one to a quantity

    [addToCart] computes [quantity + 1] in binary64. The lemmas below follow
    the specification of the addition ([SFadd]: align, add the mantissas,
    round to nearest even) to show that it never takes a quantity that is
    not [<= 0] to one that is. *)

Section AddOne.
Local Open Scope Z_scope.

Lemma digits2_pos_bounds p :
  2 ^ (Z.pos (digits2_pos p) - 1) <= Z.pos p < 2 ^ Z.pos (digits2_pos p).
Proof.
  induction p as [p IH|p IH|]; simpl digits2_pos.
  - rewrite Pos2Z.inj_succ, Z.pow_succ_r by lia.
    replace (Z.succ (Z.pos (digits2_pos p)) - 1)
      with (Z.succ (Z.pos (digits2_pos p) - 1)) by lia.
    rewrite Z.pow_succ_r by lia. lia.
  - rewrite Pos2Z.inj_succ, Z.pow_succ_r by lia.
    replace (Z.succ (Z.pos (digits2_pos p)) - 1)
      with (Z.succ (Z.pos (digits2_pos p) - 1)) by lia.
    rewrite Z.pow_succ_r by lia. lia.
  - simpl. lia.
Qed.

Lemma digits2_pos_mono p q :
  (p <= q)%positive -> Z.pos (digits2_pos p) <= Z.pos (digits2_pos q).
Proof.
  intros Hpq.
  destruct (Z_le_gt_dec (Z.pos (digits2_pos p)) (Z.pos (digits2_pos q)))
    as [|Hgt]; [assumption|].
  exfalso.
  pose proof (digits2_pos_bounds p) as [Hp _].
  pose proof (digits2_pos_bounds q) as [_ Hq].
  assert (2 ^ Z.pos (digits2_pos q) <= 2 ^ (Z.pos (digits2_pos p) - 1))
    by (apply Z.pow_le_mono_r; lia).
  lia.
Qed.

Lemma digits2_pos_iter_xO p d :
  Z.pos (digits2_pos (Pos.iter xO p d)) = Z.pos (digits2_pos p) + Z.pos d.
Proof.
  revert p. induction d using Pos.peano_ind; intros p.
  - simpl. lia.
  - rewrite Pos.iter_succ. simpl digits2_pos. rewrite Pos2Z.inj_succ, IHd. lia.
Qed.

(** One right shift of a mantissa of at least two bits drops one bit. *)
Lemma shr_1_pos mrs q :
  shr_m mrs = Z.pos q -> 2 <= Z.pos (digits2_pos q) ->
  exists q', shr_m (shr_1 mrs) = Z.pos q' /\
             Z.pos (digits2_pos q') = Z.pos (digits2_pos q) - 1.
Proof.
  destruct mrs as [m r s]; simpl. intros -> Hd.
  destruct q as [q|q|]; simpl in *.
  - exists q. split; [reflexivity | lia].
  - exists q. split; [reflexivity | lia].
  - lia.
Qed.

Lemma iter_shr_1_pos p : forall mrs q,
  shr_m mrs = Z.pos q -> Z.pos p < Z.pos (digits2_pos q) ->
  exists q', shr_m (SpecFloat.iter_pos shr_1 p mrs) = Z.pos q' /\
             Z.pos (digits2_pos q') = Z.pos (digits2_pos q) - Z.pos p.
Proof.
  induction p as [p IH|p IH|]; intros mrs q Hm Hd; simpl SpecFloat.iter_pos.
  - destruct (shr_1_pos mrs q Hm) as (q1 & H1 & D1); [lia|].
    destruct (IH _ _ H1) as (q2 & H2 & D2); [lia|].
    destruct (IH _ _ H2) as (q3 & H3 & D3); [lia|].
    exists q3. split; [assumption | lia].
  - destruct (IH _ _ Hm) as (q2 & H2 & D2); [lia|].
    destruct (IH _ _ H2) as (q3 & H3 & D3); [lia|].
    exists q3. split; [assumption | lia].
  - destruct (shr_1_pos mrs q Hm) as (q1 & H1 & D1); [lia|].
    exists q1. split; [assumption | lia].
Qed.

Lemma shr_m_record_of_loc m l : shr_m (shr_record_of_loc m l) = m.
Proof. destruct l as [|[]]; reflexivity. Qed.

(** Shifting a positive mantissa of value at least 1 to its binary64
    exponent leaves a positive mantissa of value at least 1. *)
Lemma shr_fexp_pos m e l :
  1 <= Z.pos (digits2_pos m) + e ->
  exists m', shr_m (fst (shr_fexp prec emax (Z.pos m) e l)) = Z.pos m' /\
             1 <= Z.pos (digits2_pos m') + snd (shr_fexp prec emax (Z.pos m) e l).
Proof.
  intros H. unfold shr_fexp, shr, fexp, SpecFloat.emin, prec, emax.
  simpl Zdigits2. rewrite Z.max_l by lia.
  destruct (Z.pos (digits2_pos m) + e - 53 - e) as [|p|p] eqn:En;
    simpl fst; simpl snd.
  - exists m. rewrite shr_m_record_of_loc. split; [reflexivity | lia].
  - destruct (iter_shr_1_pos p (shr_record_of_loc (Z.pos m) l) m)
      as (q & Hq & Dq).
    + apply shr_m_record_of_loc.
    + lia.
    + exists q. split; [assumption | lia].
  - exists m. rewrite shr_m_record_of_loc. split; [reflexivity | lia].
Qed.

Lemma round_nearest_even_pos m l :
  exists m', round_nearest_even (Z.pos m) l = Z.pos m' /\ (m <= m')%positive.
Proof.
  destruct l as [|[]]; simpl.
  - exists m; split; [reflexivity | lia].
  - destruct m; simpl; eexists; (split; [reflexivity | lia]).
  - exists m; split; [reflexivity | lia].
  - exists (m + 1)%positive; split; [reflexivity | lia].
Qed.

Lemma binary_round_aux_pos m e l :
  1 <= Z.pos (digits2_pos m) + e ->
  positive_result (binary_round_aux prec emax false (Z.pos m) e l).
Proof.
  intros H. unfold binary_round_aux.
  destruct (shr_fexp_pos m e l H) as (m1 & H1 & D1).
  destruct (shr_fexp prec emax (Z.pos m) e l) as [mrs1 e1]. simpl in H1, D1.
  rewrite H1.
  destruct (round_nearest_even_pos m1 (loc_of_shr_record mrs1))
    as (m2 & H2 & L2).
  rewrite H2.
  assert (D2 : 1 <= Z.pos (digits2_pos m2) + e1)
    by (pose proof (digits2_pos_mono _ _ L2); lia).
  destruct (shr_fexp_pos m2 e1 loc_Exact D2) as (m3 & H3 & _).
  destruct (shr_fexp prec emax (Z.pos m2) e1 loc_Exact) as [mrs3 e3].
  simpl in H3. rewrite H3.
  destruct (e3 <=? emax - prec); [left; eauto | right; reflexivity].
Qed.

Lemma binary_round_pos m e :
  1 <= Z.pos (digits2_pos m) + e ->
  positive_result (binary_round prec emax false m e).
Proof.
  intros H. unfold binary_round, shl_align.
  destruct (fexp prec emax (Z.pos (digits2_pos m) + e) - e) as [|d|d] eqn:Ed;
    try (apply binary_round_aux_pos; assumption).
  apply binary_round_aux_pos. rewrite digits2_pos_iter_xO. lia.
Qed.

Lemma SFadd_one_positive s :
  SFleb s (Prim2SF 0) = false -> SFleb (SF64add s (Prim2SF 1)) (Prim2SF 0) = false.
Proof.
  change (Prim2SF 0) with (S754_zero false).
  change (Prim2SF 1) with (S754_finite false 4503599627370496 (-52)).
  destruct s as [b|[|]| |[|] m e]; simpl; try discriminate; try reflexivity.
  intros _.
  set (ez := Z.min e (-52)).
  assert (Hb : 1 <= Z.pos (digits2_pos
                  (fst (shl_align 4503599627370496 (-52) ez))) + ez).
  { unfold shl_align. destruct (ez - -52) as [|d|d] eqn:Ed; simpl fst.
    - simpl. lia.
    - lia.
    - rewrite digits2_pos_iter_xO. simpl. lia. }
  set (a := fst (shl_align m e ez)) in *.
  set (b := fst (shl_align 4503599627370496 (-52) ez)) in *.
  change (Z.pos a + Z.pos b) with (Z.pos (a + b)).
  unfold binary_normalize.
  destruct (binary_round_pos (a + b) ez) as [(m' & e' & ->)| ->];
    try reflexivity.
  pose proof (digits2_pos_mono b (a + b)%positive ltac:(lia)). lia.
Qed.

End AddOne.

(** In binary64, [q + 1 <= 0] is false whenever [q <= 0] is false: for NaN
    ([NaN + 1] is NaN), for [+infinity] and for every positive [q]. *)
Lemma add_one_not_le_zero (q : number) :
  (q <=? 0)%float = false -> (q + 1 <=? 0)%float = false.
Proof.
  rewrite !FloatAxioms.leb_spec, FloatAxioms.add_spec.
  apply SFadd_one_positive.
Qed.

(** A number that is not [<= 0] is positive or NaN. *)
Lemma not_le_zero_positive (q : number) :
  (q <=? 0)%float = false ->
  (0 <? q)%float = true \/ Number_isNaN q = true.
Proof.
  unfold Number_isNaN. intros H. rewrite FloatAxioms.leb_spec in H.
  rewrite FloatAxioms.ltb_spec, FloatAxioms.eqb_spec.
  change (Prim2SF 0) with (S754_zero false) in *.
  destruct (Prim2SF q) as [b|[|]| |[|] m e]; simpl in *; auto; discriminate.
Qed.

(** ** Arrays *)

Lemma findIndex_from_none {A : Type} (pred : A -> bool) (l : list A) (i : Z) :
  Forall (fun x => pred x = false) l -> findIndex_from pred l i = (-1)%Z.
Proof.
  intros H. revert i. induction H as [|x l Hx _ IH]; intros i; simpl.
  - reflexivity.
  - rewrite Hx. apply IH.
Qed.

Lemma findIndex_from_first {A : Type} (pred : A -> bool)
  (before : list A) (x : A) (after : list A) (i : Z) :
  Forall (fun y => pred y = false) before -> pred x = true ->
  findIndex_from pred (before ++ x :: after) i = (i + Z.of_nat (length before))%Z.
Proof.
  intros H Hx. revert i. induction H as [|y l Hy _ IH]; intros i; simpl.
  - rewrite Hx. lia.
  - rewrite Hy, IH. lia.
Qed.

(** Every array either has no element that satisfies the predicate or
    splits at the first one that does. *)
Lemma first_match {A : Type} (pred : A -> bool) (l : list A) :
  Forall (fun x => pred x = false) l \/
  exists before x after,
    l = before ++ x :: after /\
    Forall (fun y => pred y = false) before /\ pred x = true.
Proof.
  induction l as [|y l [IH|(before & x & after & -> & Hb & Hx)]].
  - left. constructor.
  - destruct (pred y) eqn:Hy.
    + right. exists [], y, l. repeat split; [constructor | assumption].
    + left. constructor; assumption.
  - destruct (pred y) eqn:Hy.
    + right. exists [], y, (before ++ x :: after).
      repeat split; [constructor | assumption].
    + right. exists (y :: before), x, after.
      repeat split; [constructor; assumption | assumption].
Qed.

Lemma reduce_sum_from {A : Type} (f : A -> number) (l : list A) (acc : number) :
  reduce (fun total x => (total + f x)%float) acc l = sum_from acc (map f l).
Proof.
  unfold reduce. revert acc. induction l as [|x l IH]; intros acc; simpl.
  - reflexivity.
  - apply IH.
Qed.

(** ** Strings *)

Lemma truthy_true (s : string) : truthy s = true <-> s <> ""%string.
Proof.
  unfold truthy. rewrite negb_true_iff. split.
  - intros H ->. discriminate.
  - intros H. apply String.eqb_neq. assumption.
Qed.

Lemma truthy_false (s : string) : truthy s = false <-> s = ""%string.
Proof.
  unfold truthy. rewrite negb_false_iff. apply String.eqb_eq.
Qed.

Lemma id_eqb_false (item : CartItem) (k : string) :
  (id item =? k)%string = false <-> id item <> k.
Proof. apply String.eqb_neq. Qed.

(** ** The derived totals *)

(** C2. For every cart, [totalItems] is the sum of the [quantity] fields of
    its entries and [totalPrice] is the sum of [price * quantity] over its
    entries, the sums being those of [number] arithmetic taken in cart
    order from 0. *)
Theorem totals_are_sums (c : list CartItem) :
  totalItems c = sum (map quantity c) /\
  totalPrice c = sum (map (fun item => (price item * quantity item)%float) c).
Proof.
  unfold totalItems, totalPrice, sum. split.
  - apply (reduce_sum_from quantity).
  - apply (reduce_sum_from (fun item => (price item * quantity item)%float)).
Qed.

(** In binary64 the order of the additions matters: the total of the
    quantities [1e16; 1; 1] is [1e16], that of [1; 1; 1e16] is [1e16 + 2].
    [sum] adds in cart order, as [reduce] does. *)
Example totalItems_in_cart_order :
  totalItems [item_of_product shirt 1e16%float; item_of_product mug 1%float;
              item_of_product mug 1%float] = 1e16%float /\
  totalItems [item_of_product mug 1%float; item_of_product mug 1%float;
              item_of_product shirt 1e16%float] = 10000000000000002%float.
Proof. split; reflexivity. Qed.

(** ** [addToCart] *)

Ltac step := unfold bind, ret, setCart, setIsCartOpen, console_error; simpl.

Lemma addToCart_new (p : Product.t) (w : World) :
  truthy (Product.id p) = true ->
  Forall (fun item => (id item =? Product.id p)%string = false) (cart w) ->
  addToCart (Some p) w =
    (Normal tt,
     mkWorld (cart w ++ [item_of_product p 1%float]) true (loaded w)
       (localStorage w) (console w)).
Proof.
  intros Hid Hnone. unfold addToCart. rewrite Hid. step.
  unfold findIndex. rewrite (findIndex_from_none _ _ _ Hnone). reflexivity.
Qed.

Lemma addToCart_existing (p : Product.t) (w : World)
  (before : list CartItem) (existing : CartItem) (after : list CartItem) :
  truthy (Product.id p) = true ->
  cart w = before ++ existing :: after ->
  Forall (fun item => (id item =? Product.id p)%string = false) before ->
  (id existing =? Product.id p)%string = true ->
  addToCart (Some p) w =
    (Normal tt,
     mkWorld
       (before ++ with_quantity existing (quantity existing + 1)%float :: after)
       true (loaded w) (localStorage w) (console w)).
Proof.
  intros Hid Hcart Hbefore Hex. unfold addToCart. rewrite Hid. step.
  rewrite Hcart. unfold findIndex.
  rewrite (findIndex_from_first _ before existing after 0%Z Hbefore Hex).
  replace (0 + Z.of_nat (length before) =? -1)%Z with false
    by (symmetry; apply Z.eqb_neq; lia).
  simpl negb. cbv iota.
  replace (Z.to_nat (0 + Z.of_nat (length before))) with (length before) by lia.
  rewrite list_lookup_middle by reflexivity.
  replace (length before) with (length before + 0)%nat at 1 by lia.
  rewrite insert_app_r. reflexivity.
Qed.

(** What a valid [addToCart] does to the cart, by cases on the first entry
    with the product's id. *)
Lemma addToCart_valid (p : Product.t) (w : World) :
  truthy (Product.id p) = true ->
  exists c',
    addToCart (Some p) w =
      (Normal tt, mkWorld c' true (loaded w) (localStorage w) (console w)) /\
    ((Forall (fun item => (id item =? Product.id p)%string = false) (cart w) /\
      c' = cart w ++ [item_of_product p 1%float]) \/
     (exists before existing after,
        cart w = before ++ existing :: after /\
        Forall (fun item => (id item =? Product.id p)%string = false) before /\
        (id existing =? Product.id p)%string = true /\
        c' = before
               ++ with_quantity existing (quantity existing + 1)%float
               :: after)).
Proof.
  intros Hid.
  destruct (first_match (fun item => (id item =? Product.id p)%string) (cart w))
    as [Hnone | (before & existing & after & Hcart & Hbefore & Hex)].
  - eexists. split; [apply addToCart_new; assumption |]. left. auto.
  - eexists. split; [eapply addToCart_existing; eassumption |].
    right. exists before, existing, after. auto.
Qed.

(** C3. For a product with a non-empty id, [addToCart] returns normally and
    opens the cart panel. When the cart has an entry with the product's id,
    the first such entry gets its quantity incremented by 1 and keeps its
    id, name, price, description and image (the product's fields are not
    used), every other entry and the order being unchanged. When the cart
    has no such entry, a new entry with the product's fields and quantity 1
    is appended after the existing entries. *)
Theorem addToCart_increments_or_appends (p : Product.t) (w : World) :
  Product.id p <> ""%string ->
  fst (addToCart (Some p) w) = Normal tt /\
  isCartOpen (snd (addToCart (Some p) w)) = true /\
  (forall before existing after,
     cart w = before ++ existing :: after ->
     Forall (fun item => id item <> Product.id p) before ->
     id existing = Product.id p ->
     exists updated,
       cart (snd (addToCart (Some p) w)) = before ++ updated :: after /\
       quantity updated = (quantity existing + 1)%float /\
       id updated = id existing /\ name updated = name existing /\
       price updated = price existing /\
       description updated = description existing /\
       image updated = image existing) /\
  (Forall (fun item => id item <> Product.id p) (cart w) ->
   exists added,
     cart (snd (addToCart (Some p) w)) = cart w ++ [added] /\
     quantity added = 1%float /\
     id added = Product.id p /\ name added = Product.name p /\
     price added = Product.price p /\
     description added = Product.description p /\
     image added = Product.image p).
Proof.
  intros Hne. apply truthy_true in Hne. repeat split.
  - destruct (addToCart_valid p w Hne) as (c' & -> & _). reflexivity.
  - destruct (addToCart_valid p w Hne) as (c' & -> & _). reflexivity.
  - intros before existing after Hcart Hbefore Hex.
    rewrite (addToCart_existing p w before existing after Hne Hcart).
    + eexists. repeat split.
    + eapply Forall_impl; [exact Hbefore |].
      intros item. apply id_eqb_false.
    + apply String.eqb_eq. assumption.
  - intros Hnone. rewrite (addToCart_new p w Hne).
    + eexists. repeat split.
    + eapply Forall_impl; [exact Hnone |].
      intros item. apply id_eqb_false.
Qed.

(** C8. An absent product, or one whose id is empty, is rejected: the call
    returns normally, logs one message, and changes neither the cart nor
    [isCartOpen] (nor anything else of the state and the storage). *)
Theorem addToCart_rejects_invalid (product : option Product.t) (w : World) :
  product = None \/ (exists p, product = Some p /\ Product.id p = ""%string) ->
  fst (addToCart product w) = Normal tt /\
  cart (snd (addToCart product w)) = cart w /\
  isCartOpen (snd (addToCart product w)) = isCartOpen w /\
  loaded (snd (addToCart product w)) = loaded w /\
  localStorage (snd (addToCart product w)) = localStorage w /\
  console (snd (addToCart product w)) =
    console w
      ++ [("Ungültiges Produkt beim Hinzufügen zum Warenkorb"%string, None)].
Proof.
  intros [-> | (p & -> & Hid)]; unfold addToCart.
  - repeat split.
  - apply truthy_false in Hid. rewrite Hid. repeat split.
Qed.

(** The product ["p1"] added to the empty cart of a fresh provider. *)
Lemma addToCart_increments_or_appends_witness :
  Product.id shirt <> ""%string /\
  isCartOpen (snd (addToCart (Some shirt) (initial ∅))) = true.
Proof.
  split; [discriminate |].
  apply (addToCart_increments_or_appends shirt (initial ∅)). discriminate.
Defined.

(** A product with the empty id, offered to a fresh provider. *)
Lemma addToCart_rejects_invalid_witness :
  cart (snd (addToCart (Some (Product.mk "" "Shirt" 20%float "" None))
               (initial ∅))) = [] /\
  isCartOpen (snd (addToCart (Some (Product.mk "" "Shirt" 20%float "" None))
                     (initial ∅))) = false.
Proof.
  pose proof (addToCart_rejects_invalid
                (Some (Product.mk "" "Shirt" 20%float "" None)) (initial ∅))
    as H.
  split; apply H; right; eexists; split; reflexivity.
Defined.

(** Adding the same product twice gives one entry with quantity 2. *)
Example add_twice :
  cart (snd (run browser [AddToCart (Some shirt); AddToCart (Some shirt)]
               (initial ∅)))
  = [item_of_product shirt 2%float].
Proof. reflexivity. Qed.

(** ** [removeFromCart] and [updateQuantity] *)

Lemma filter_bool_decide (k : string) (c : list CartItem) :
  List.filter (fun item => negb (id item =? k)%string) c
  = filter (fun item => id item <> k) c.
Proof.
  induction c as [|x c IH]; simpl; [reflexivity |].
  rewrite filter_cons. destruct (id x =? k)%string eqn:E; simpl.
  - apply String.eqb_eq in E. rewrite decide_False by auto. exact IH.
  - apply String.eqb_neq in E. rewrite decide_True by auto. f_equal. exact IH.
Qed.

(** C9. For a non-empty id, [removeFromCart] returns normally and keeps
    exactly the entries whose id differs from the argument, in their order:
    every entry with that id is removed, also when several entries share it,
    and no entry of the resulting cart has that id. Nothing else changes. *)
Theorem removeFromCart_removes_every_match (k : string) (w : World) :
  k <> ""%string ->
  fst (removeFromCart k w) = Normal tt /\
  Forall (fun item => id item <> k) (cart (snd (removeFromCart k w))) /\
  cart (snd (removeFromCart k w)) = filter (fun item => id item <> k) (cart w) /\
  isCartOpen (snd (removeFromCart k w)) = isCartOpen w /\
  loaded (snd (removeFromCart k w)) = loaded w /\
  localStorage (snd (removeFromCart k w)) = localStorage w /\
  console (snd (removeFromCart k w)) = console w.
Proof.
  intros Hk. apply truthy_true in Hk. unfold removeFromCart. rewrite Hk.
  simpl. rewrite filter_bool_decide. repeat split.
  apply Forall_forall. intros item Hin.
  apply list_elem_of_filter in Hin. tauto.
Qed.

(** ["p1"] removed from a cart that holds it twice. *)
Lemma removeFromCart_removes_every_match_witness :
  cart (snd (removeFromCart "p1"
               (mkWorld [item_of_product shirt 2%float; item_of_product mug 1%float;
                         item_of_product shirt 5%float] false true ∅ [])))
  = filter (fun item => id item <> "p1"%string)
      [item_of_product shirt 2%float; item_of_product mug 1%float;
       item_of_product shirt 5%float].
Proof.
  apply (removeFromCart_removes_every_match "p1"
           (mkWorld [item_of_product shirt 2%float; item_of_product mug 1%float;
                     item_of_product shirt 5%float] false true ∅ [])).
  discriminate.
Defined.

(** On a cart with two entries of id ["p1"], both go. *)
Example remove_duplicates :
  cart (snd (removeFromCart "p1"
               (mkWorld [item_of_product shirt 2%float; item_of_product mug 1%float;
                         item_of_product shirt 5%float] false true ∅ [])))
  = [item_of_product mug 1%float].
Proof. reflexivity. Qed.

(** C4. For every state, every id and every quantity [q] with [q <= 0],
    [updateQuantity id q] ends in exactly the state and outcome of
    [removeFromCart id]. *)
Theorem updateQuantity_nonpositive_removes (k : string) (q : number) (w : World) :
  (q <=? 0)%float = true ->
  updateQuantity k q w = removeFromCart k w.
Proof.
  intros Hq. unfold updateQuantity.
  destruct (truthy k) eqn:Hk; simpl.
  - rewrite Hq. reflexivity.
  - unfold removeFromCart. rewrite Hk. reflexivity.
Qed.

(** [updateQuantity("p1", 0)] on a cart that contains ["p1"]. *)
Lemma updateQuantity_nonpositive_removes_witness :
  updateQuantity "p1" 0%float
    (mkWorld [item_of_product shirt 2%float] true true ∅ [])
  = removeFromCart "p1"
      (mkWorld [item_of_product shirt 2%float] true true ∅ []).
Proof.
  apply (updateQuantity_nonpositive_removes "p1" 0%float). reflexivity.
Defined.

(** ** The [isCartOpen] flag *)

(** C10. [removeFromCart], [updateQuantity] and [clearCart] leave
    [isCartOpen] as it is, in every state and environment and for all
    arguments; a call of an exposed operation that changes the flag is a
    call of [addToCart] or of [setIsCartOpen]. *)
Theorem only_addToCart_and_setIsCartOpen_touch_isCartOpen
  (env : Env) (w : World) :
  (forall k, isCartOpen (snd (removeFromCart k w)) = isCartOpen w) /\
  (forall k q, isCartOpen (snd (updateQuantity k q w)) = isCartOpen w) /\
  isCartOpen (snd (clearCart env w)) = isCartOpen w /\
  (forall c,
     isCartOpen (snd (perform env c w)) <> isCartOpen w ->
     (exists product, c = AddToCart product) \/
     (exists isOpen, c = SetIsCartOpen isOpen)).
Proof.
  assert (Hremove : forall k, isCartOpen (snd (removeFromCart k w)) = isCartOpen w).
  { intros k. unfold removeFromCart. destruct (truthy k); reflexivity. }
  assert (Hupdate : forall k q,
             isCartOpen (snd (updateQuantity k q w)) = isCartOpen w).
  { intros k q. unfold updateQuantity.
    destruct (truthy k) eqn:Hk; simpl; [| reflexivity].
    destruct (q <=? 0)%float; [| reflexivity].
    unfold removeFromCart. rewrite Hk. reflexivity. }
  assert (Hclear : isCartOpen (snd (clearCart env w)) = isCartOpen w).
  { unfold clearCart, try_catch, localStorage_removeItem. step.
    destruct (window_undefined env); [reflexivity |].
    destruct (removeItem_throws env); reflexivity. }
  repeat split; try assumption.
  intros [product | k | k q | | isOpen] Hchange; simpl in Hchange.
  - left. eauto.
  - contradiction Hchange. apply Hremove.
  - contradiction Hchange. apply Hupdate.
  - contradiction Hchange.
  - right. eauto.
Qed.

(** ** The cart invariant *)

Lemma map_id_filter_incl (f : CartItem -> bool) (c : list CartItem) (k : string) :
  k ∈ map id (List.filter f c) -> k ∈ map id c.
Proof.
  induction c as [|x c IH]; simpl; [auto |].
  destruct (f x); simpl; rewrite ?elem_of_cons; intuition.
Qed.

Lemma unique_ids_filter (f : CartItem -> bool) (c : list CartItem) :
  unique_ids c -> unique_ids (List.filter f c).
Proof.
  unfold unique_ids. induction c as [|x c IH]; simpl; [auto |].
  rewrite NoDup_cons. intros [Hx Hc].
  destruct (f x); simpl; [| auto].
  apply NoDup_cons. split; [| auto].
  intros Hin. apply Hx. eapply map_id_filter_incl. exact Hin.
Qed.

Lemma map_id_set_quantity (k : string) (q : number) (c : list CartItem) :
  map id
    (map (fun item => if (id item =? k)%string then with_quantity item q else item) c)
  = map id c.
Proof.
  induction c as [|x c IH]; simpl; [reflexivity |].
  rewrite IH. destruct (id x =? k)%string; reflexivity.
Qed.

Lemma unique_ids_append (c : list CartItem) (item : CartItem) :
  unique_ids c ->
  Forall (fun other => (id other =? id item)%string = false) c ->
  unique_ids (c ++ [item]).
Proof.
  unfold unique_ids. intros Hc Hnew. rewrite map_app. simpl.
  apply NoDup_app. repeat split.
  - assumption.
  - intros k Hk Hin. apply list_elem_of_singleton in Hin. subst k.
    apply list_elem_of_In, in_map_iff in Hk. destruct Hk as (other & Heq & Hother).
    rewrite Forall_forall in Hnew.
    specialize (Hnew other (proj2 (list_elem_of_In _ _) Hother)).
    apply String.eqb_neq in Hnew. contradiction.
  - apply NoDup_singleton.
Qed.

Lemma addToCart_preserves (product : option Product.t) (w : World) :
  unique_ids (cart w) -> no_quantity_le_zero (cart w) ->
  unique_ids (cart (snd (addToCart product w))) /\
  no_quantity_le_zero (cart (snd (addToCart product w))).
Proof.
  intros Hu Hq. destruct product as [p|]; [| split; assumption].
  destruct (truthy (Product.id p)) eqn:Hid.
  - destruct (addToCart_valid p w Hid)
      as (c' & -> & [[Hnone ->] | (before & existing & after & Hc & Hb & He & ->)]);
      simpl.
    + split.
      * apply unique_ids_append; assumption.
      * apply Forall_app. split; [assumption |].
        constructor; [reflexivity | constructor].
    + rewrite Hc in Hu, Hq. split.
      * unfold unique_ids in *. rewrite map_app in *. exact Hu.
      * unfold no_quantity_le_zero in *.
        rewrite Forall_app, Forall_cons in *.
        destruct Hq as (Hq1 & Hq2 & Hq3). repeat split; try assumption.
        simpl. apply add_one_not_le_zero. assumption.
  - unfold addToCart. rewrite Hid. split; assumption.
Qed.

Lemma removeFromCart_preserves (k : string) (w : World) :
  unique_ids (cart w) -> no_quantity_le_zero (cart w) ->
  unique_ids (cart (snd (removeFromCart k w))) /\
  no_quantity_le_zero (cart (snd (removeFromCart k w))).
Proof.
  intros Hu Hq. unfold removeFromCart.
  destruct (truthy k); simpl; [| split; assumption]. split.
  - apply unique_ids_filter. assumption.
  - unfold no_quantity_le_zero in *. rewrite Forall_forall in *.
    intros item Hin. apply Hq.
    apply list_elem_of_In. apply list_elem_of_In in Hin.
    apply filter_In in Hin. tauto.
Qed.

Lemma updateQuantity_preserves (k : string) (q : number) (w : World) :
  unique_ids (cart w) -> no_quantity_le_zero (cart w) ->
  unique_ids (cart (snd (updateQuantity k q w))) /\
  no_quantity_le_zero (cart (snd (updateQuantity k q w))).
Proof.
  intros Hu Hq. unfold updateQuantity.
  destruct (truthy k) eqn:Hk; simpl; [| split; assumption].
  destruct (q <=? 0)%float eqn:Hle.
  - pose proof (removeFromCart_preserves k w Hu Hq) as H.
    unfold removeFromCart in *. rewrite Hk in *. exact H.
  - simpl. split.
    + unfold unique_ids. rewrite map_id_set_quantity. assumption.
    + unfold no_quantity_le_zero in *.
      induction Hq as [|item c Hitem _ IH]; simpl; constructor.
      * destruct (id item =? k)%string; [exact Hle | exact Hitem].
      * apply IH. unfold unique_ids in Hu. simpl in Hu.
        apply NoDup_cons in Hu. tauto.
Qed.

Lemma clearCart_empties (env : Env) (w : World) :
  cart (snd (clearCart env w)) = [].
Proof.
  unfold clearCart, try_catch, localStorage_removeItem. step.
  destruct (window_undefined env); [reflexivity |].
  destruct (removeItem_throws env); reflexivity.
Qed.

Lemma perform_preserves (env : Env) (c : call) (w : World) :
  unique_ids (cart w) -> no_quantity_le_zero (cart w) ->
  unique_ids (cart (snd (perform env c w))) /\
  no_quantity_le_zero (cart (snd (perform env c w))).
Proof.
  intros Hu Hq. destruct c as [product | k | k q | | isOpen]; simpl.
  - apply addToCart_preserves; assumption.
  - apply removeFromCart_preserves; assumption.
  - apply updateQuantity_preserves; assumption.
  - rewrite clearCart_empties. split; constructor.
  - split; assumption.
Qed.

Lemma run_preserves (env : Env) (calls : list call) : forall w : World,
  unique_ids (cart w) -> no_quantity_le_zero (cart w) ->
  unique_ids (cart (snd (run env calls w))) /\
  no_quantity_le_zero (cart (snd (run env calls w))).
Proof.
  induction calls as [|c calls IH]; intros w Hu Hq; simpl.
  - split; assumption.
  - destruct (perform_preserves env c w Hu Hq) as [Hu' Hq'].
    unfold bind. destruct (perform env c w) as [[[]|e|] w']; simpl in *.
    + apply IH; assumption.
    + split; assumption.
    + split; assumption.
Qed.

(** C1, as the code has it. After every sequence of calls of the exposed
    operations on a provider that starts with the empty cart, in every
    environment, no two entries of the cart have the same id and no entry
    has a quantity [q] with [q <= 0]: every quantity is positive or NaN.
    (A quantity is whatever number [updateQuantity] was given that is not
    [<= 0], plus the ones added since: it need not be an integer.) *)
Theorem cart_invariant (env : Env) (calls : list call)
  (storage : gmap string string) :
  NoDup (map id (cart (snd (run env calls (initial storage))))) /\
  Forall (fun item => (quantity item <=? 0)%float = false)
    (cart (snd (run env calls (initial storage)))) /\
  Forall (fun item => (0 <? quantity item)%float = true \/
                      Number_isNaN (quantity item) = true)
    (cart (snd (run env calls (initial storage)))).
Proof.
  assert (Hu0 : unique_ids (cart (initial storage))) by constructor.
  assert (Hq0 : no_quantity_le_zero (cart (initial storage))) by constructor.
  destruct (run_preserves env calls (initial storage) Hu0 Hq0) as [Hu Hq].
  repeat split; try assumption.
  eapply Forall_impl; [exact Hq |].
  intros item. apply not_le_zero_positive.
Qed.

(** C1 as stated fails: [updateQuantity] stores any number that is not
    [<= 0], here 0.5, which is no integer. *)
Lemma fractional_quantity_reachable :
  exists item,
    cart (snd (run browser
                 [AddToCart (Some shirt); UpdateQuantity "p1" 0.5%float]
                 (initial ∅))) = [item] /\
    quantity item = 0.5%float /\
    is_positive_integer (quantity item) = false.
Proof.
  exists (item_of_product shirt 0.5%float). repeat split.
Qed.

(** NaN is not [<= 0] either, so it can be stored as a quantity. *)
Example nan_quantity_reachable :
  cart (snd (run browser
               [AddToCart (Some shirt); UpdateQuantity "p1" nan]
               (initial ∅)))
  = [item_of_product shirt nan].
Proof. reflexivity. Qed.

(** ** [clearCart] *)

Ltac storage env :=
  unfold clearCart, persist_effect, hydration_effect, try_finally, try_catch,
    localStorage_removeItem, localStorage_setItem, localStorage_getItem,
    window_undefined, parse, setCart_parsed, setLoaded;
  step;
  destruct env as [window getThrows setThrows removeThrows]; simpl in *.

(** C7, as the code has it. [clearCart] returns normally with the cart
    empty, and so does the persist effect that follows the change of the
    cart. When the erase succeeds the key is absent after [clearCart]. When
    the erase throws (or there is no storage at all), the failure is logged
    and the stored value is left as it was; the persist effect then stores
    the encoding of the empty cart under the key, provided the first load
    has completed and the write does not throw; when the write throws as
    well, the storage still holds what it held before [clearCart]. *)
Theorem clearCart_best_effort (env : Env) (JSON_stringify : jsvalue -> string)
  (w : World) :
  let w1 := snd (clearCart env w) in
  let w2 := snd (persist_effect env JSON_stringify w1) in
  fst (clearCart env w) = Normal tt /\ cart w1 = [] /\
  fst (persist_effect env JSON_stringify w1) = Normal tt /\ cart w2 = [] /\
  (has_window env = true -> removeItem_throws env = false ->
   localStorage w1 = delete "cart"%string (localStorage w) /\
   localStorage w1 !! "cart"%string = None /\
   console w1 = console w) /\
  (has_window env = false \/ removeItem_throws env = true ->
   localStorage w1 = localStorage w /\
   exists err,
     console w1 =
       console w
         ++ [("Fehler beim Löschen des Warenkorbs aus dem localStorage:"%string,
              Some err)]) /\
  (has_window env = true -> setItem_throws env = false -> loaded w = true ->
   localStorage w2 !! "cart"%string = Some (JSON_stringify (cart_value []))) /\
  (has_window env = false \/ removeItem_throws env = true ->
   has_window env = false \/ setItem_throws env = true \/ loaded w = false ->
   localStorage w2 = localStorage w).
Proof.
  destruct w as [c isOpen isLoaded store log].
  storage env.
  destruct window, removeThrows, setThrows, isLoaded; simpl;
    repeat split; intros; simpl in *;
    try discriminate; try reflexivity;
    try apply lookup_delete_eq; try apply lookup_insert_eq;
    try (eexists; reflexivity);
    intuition discriminate.
Qed.

(** C7 as stated fails: with a storage whose [removeItem] and [setItem]
    throw, [clearCart] and the persist effect after it empty the cart in
    memory, yet the key still holds the cart stored before. *)
Lemma clearCart_keeps_stale_key :
  let env := mkEnv true false true true in
  let w := mkWorld sample_cart true true {["cart"%string := "saved"%string]} [] in
  let w1 := snd (clearCart env w) in
  let w2 := snd (persist_effect env (stringify_as "[]") w1) in
  fst (clearCart env w) = Normal tt /\ cart w1 = [] /\
  localStorage w1 !! "cart"%string = Some "saved"%string /\
  fst (persist_effect env (stringify_as "[]") w1) = Normal tt /\
  localStorage w2 !! "cart"%string = Some "saved"%string.
Proof. repeat split. Qed.

(** ** Hydration *)

(** C5, as the code has it. When the storage can be read and the key holds
    a non-empty text that [JSON.parse] rejects, or that decodes to a value
    that is not an array, hydration returns normally (nothing is raised to
    the caller), logs the failure, leaves the cart empty and marks the load
    as done. When [removeItem] does not throw, the key is erased and that one
    failure is all the console gets. When [removeItem] throws, the storage is
    left as it was and that failure is logged too: after the [SyntaxError]
    for a text that is no JSON; for a value that is no array, after the
    format message, once as the error of the load and once as the error of
    the reset. *)
Theorem hydration_discards_corrupt (env : Env)
  (JSON_parse : string -> option jsvalue)
  (storage : gmap string string) (text : string) :
  has_window env = true -> getItem_throws env = false ->
  storage !! "cart"%string = Some text ->
  text <> ""%string ->
  JSON_parse text = None \/
  (exists v, JSON_parse text = Some v /\ Array_isArray v = false) ->
  let r := hydration_effect env JSON_parse (initial storage) in
  fst r = Normal tt /\
  cart (snd r) = [] /\ loaded (snd r) = true /\ isCartOpen (snd r) = false /\
  (exists entry rest,
     console (snd r) = entry :: rest /\
     (entry = ("Fehler beim Laden des Warenkorbs:"%string, Some SyntaxError) \/
      entry =
        ("Ungültiges Warenkorb-Format im localStorage, verwende leeren Warenkorb"%string,
         None))) /\
  (removeItem_throws env = false ->
   localStorage (snd r) = delete "cart"%string storage /\
   localStorage (snd r) !! "cart"%string = None) /\
  (removeItem_throws env = true -> localStorage (snd r) = storage) /\
  (removeItem_throws env = false -> JSON_parse text = None ->
   console (snd r)
   = [("Fehler beim Laden des Warenkorbs:"%string, Some SyntaxError)]) /\
  (removeItem_throws env = false -> JSON_parse text <> None ->
   console (snd r)
   = [("Ungültiges Warenkorb-Format im localStorage, verwende leeren Warenkorb"%string,
       None)]) /\
  (removeItem_throws env = true -> JSON_parse text = None ->
   console (snd r)
   = [("Fehler beim Laden des Warenkorbs:"%string, Some SyntaxError);
      ("Fehler beim Zurücksetzen des localStorage:"%string,
       Some (DOMException "removeItem"))]) /\
  (removeItem_throws env = true -> JSON_parse text <> None ->
   console (snd r)
   = [("Ungültiges Warenkorb-Format im localStorage, verwende leeren Warenkorb"%string,
       None);
      ("Fehler beim Laden des Warenkorbs:"%string,
       Some (DOMException "removeItem"));
      ("Fehler beim Zurücksetzen des localStorage:"%string,
       Some (DOMException "removeItem"))]).
Proof.
  intros Hwindow Hget Hstored Htext Hcorrupt.
  apply truthy_true in Htext.
  storage env. subst window getThrows. simpl.
  rewrite Hstored, Htext.
  destruct Hcorrupt as [-> | (v & -> & Hv)]; simpl.
  - destruct removeThrows; simpl; repeat split; intros;
      try discriminate; try reflexivity; try congruence;
      try apply lookup_delete_eq; eauto.
  - rewrite Hv. simpl.
    destruct removeThrows; simpl; repeat split; intros;
      try discriminate; try reflexivity; try congruence;
      try apply lookup_delete_eq; eauto.
Qed.

(** The stored text [not-an-array], which is no JSON. *)
Lemma hydration_discards_corrupt_witness :
  let r := hydration_effect browser parse_nothing
             (initial {["cart"%string := "not-an-array"%string]}) in
  fst r = Normal tt /\ cart (snd r) = [] /\
  localStorage (snd r) !! "cart"%string = None.
Proof.
  destruct (hydration_discards_corrupt browser parse_nothing
              {["cart"%string := "not-an-array"%string]} "not-an-array")
    as (H1 & H2 & _ & _ & _ & H3 & _).
  - reflexivity.
  - reflexivity.
  - apply lookup_singleton_eq.
  - discriminate.
  - left. reflexivity.
  - intros r. split; [exact H1 | split; [exact H2 | apply H3; reflexivity]].
Defined.

(** A stored [3] is JSON, but no array: the format is reported and the key
    erased. *)
Example hydration_discards_non_array :
  hydration_effect browser (parse_as "3" (JNumber 3%float))
    (initial {["cart"%string := "3"%string]})
  = (Normal tt,
     mkWorld [] false true ∅
       [("Ungültiges Warenkorb-Format im localStorage, verwende leeren Warenkorb"%string,
         None)]).
Proof. reflexivity. Qed.

(** C5 as stated fails on the empty text: [JSON.parse] rejects it, but the
    test [if (savedCart)] takes it for an absent value, so nothing is logged
    and the key is not erased. *)
Lemma empty_text_is_kept :
  let r := hydration_effect browser parse_nothing
             (initial {["cart"%string := ""%string]}) in
  parse_nothing "" = None /\
  fst r = Normal tt /\ cart (snd r) = [] /\
  localStorage (snd r) !! "cart"%string = Some ""%string /\
  console (snd r) = [].
Proof. repeat split. Qed.

(** ** Persisting and hydrating again *)

Lemma JSON_number_exact (n : number) :
  JSON_exact n = true -> JSON_number n = JNumber n.
Proof.
  unfold JSON_exact, JSON_number. destruct (classify n); congruence.
Qed.

(** The typed reading of what the JSON codec makes of an entry is the
    entry, when its numbers are ones JSON carries unchanged. *)
Lemma as_CartItem_clone (item : CartItem) :
  JSON_exact (price item) = true -> JSON_exact (quantity item) = true ->
  as_CartItem (JSON_clone (item_value item)) = Some item.
Proof.
  intros Hp Hq. destruct item as [i n p d [src|] q]; simpl in *;
    rewrite (JSON_number_exact p Hp), (JSON_number_exact q Hq); reflexivity.
Qed.

Lemma as_Cart_clone (c : list CartItem) :
  Forall (fun item => JSON_exact (price item) = true /\
                      JSON_exact (quantity item) = true) c ->
  as_Cart (JSON_clone (cart_value c)) = Some c.
Proof.
  intros H.
  change (as_CartItems (map JSON_clone (map item_value c)) = Some c).
  induction H as [|item c [Hp Hq] _ IH].
  - reflexivity.
  - cbn [map as_CartItems].
    rewrite (as_CartItem_clone item Hp Hq), IH. reflexivity.
Qed.

(** C6, as the code has it. Take a cart whose prices and quantities are
    numbers that JSON carries unchanged (finite, and not [-0]), a storage
    that can be written and read, and a codec that on this cart does what
    ECMAScript prescribes ([JSON.stringify] gives a non-empty text, which
    [JSON.parse] reads back as [JSON_clone] of the cart's value). Then the
    persist effect stores the cart under ["cart"], and hydrating a fresh
    provider from that storage returns normally with a cart equal to the
    original: the same entries, with the same fields, in the same order. *)
Theorem persist_then_hydrate (env : Env)
  (JSON_parse : string -> option jsvalue) (JSON_stringify : jsvalue -> string)
  (c : list CartItem) (isOpen : bool) (storage : gmap string string)
  (log : list (string * option exn)) :
  has_window env = true -> getItem_throws env = false ->
  setItem_throws env = false ->
  Forall (fun item => JSON_exact (price item) = true /\
                      JSON_exact (quantity item) = true) c ->
  JSON_stringify (cart_value c) <> ""%string ->
  JSON_parse (JSON_stringify (cart_value c)) = Some (JSON_clone (cart_value c)) ->
  let stored :=
    snd (persist_effect env JSON_stringify (mkWorld c isOpen true storage log)) in
  let r := hydration_effect env JSON_parse (initial (localStorage stored)) in
  localStorage stored !! "cart"%string = Some (JSON_stringify (cart_value c)) /\
  fst r = Normal tt /\
  cart (snd r) = c /\ loaded (snd r) = true /\ console (snd r) = [] /\
  localStorage (snd r) = localStorage stored.
Proof.
  intros Hwindow Hget Hset Hexact Htext Hcodec.
  apply truthy_true in Htext.
  pose proof (as_Cart_clone c Hexact) as Hcart.
  assert (Harray : Array_isArray (JSON_clone (cart_value c)) = true)
    by reflexivity.
  unfold persist_effect, hydration_effect, try_finally, try_catch,
    localStorage_setItem, localStorage_getItem, window_undefined, bind, ret,
    initial.
  rewrite Hwindow, Hget, Hset.
  cbn [negb orb loaded cart localStorage set_localStorage fst snd].
  rewrite lookup_insert_eq, Htext.
  unfold parse, ret. rewrite Hcodec, Harray.
  unfold setCart_parsed. rewrite Hcart.
  repeat split.
Qed.

(** The cart of two shirts and a mug, with the text [JSON.stringify] gives
    for it. *)
Lemma persist_then_hydrate_witness :
  let JSON_stringify := stringify_as sample_text in
  let JSON_parse :=
    parse_as sample_text (JSON_clone (cart_value sample_cart)) in
  let stored :=
    snd (persist_effect browser JSON_stringify
           (mkWorld sample_cart true true ∅ [])) in
  let r := hydration_effect browser JSON_parse (initial (localStorage stored)) in
  fst r = Normal tt /\ cart (snd r) = sample_cart.
Proof.
  intros JSON_stringify JSON_parse.
  destruct (persist_then_hydrate browser JSON_parse JSON_stringify
              sample_cart true ∅ [])
    as (_ & H1 & H2 & _).
  - reflexivity.
  - reflexivity.
  - reflexivity.
  - repeat constructor.
  - discriminate.
  - reflexivity.
  - split; [exact H1 | exact H2].
Defined.

(** C6 as stated fails on a cart that holds a number JSON cannot carry.
    Adding a product whose price is NaN gives a cart with one entry of
    quantity 1. JSON has no NaN: the persist effect stores the price as
    [null], and hydration of a fresh provider returns normally with the
    decoded array as its cart, whose one entry has the price [null]. That
    cart is not the original one, nor a [CartItem[]] at all. *)
Lemma nan_price_is_not_restored :
  let JSON_stringify := stringify_as nan_text in
  let JSON_parse := parse_as nan_text (JSON_clone (cart_value nan_cart)) in
  let stored :=
    snd (persist_effect browser JSON_stringify
           (mkWorld nan_cart true true ∅ [])) in
  let r :=
    hydration_effect_untyped browser JSON_parse
      (initial (localStorage stored)) in
  cart (snd (run browser [AddToCart (Some unpriced)] (initial ∅))) = nan_cart /\
  JSON_parse (JSON_stringify (cart_value nan_cart))
    = Some (JSON_clone (cart_value nan_cart)) /\
  localStorage stored !! "cart"%string = Some nan_text /\
  fst r = Normal tt /\
  cart (snd r)
    = [JObject [("id"%string, JString "p1");
                ("name"%string, JString "Shirt");
                ("price"%string, JNull);
                ("description"%string, JString "A cotton shirt");
                ("quantity"%string, JNumber 1%float)]] /\
  cart_value nan_cart
    = JArray [JObject [("id"%string, JString "p1");
                       ("name"%string, JString "Shirt");
                       ("price"%string, JNumber nan);
                       ("description"%string, JString "A cotton shirt");
                       ("quantity"%string, JNumber 1%float)]] /\
  JArray (cart (snd r)) <> cart_value nan_cart /\
  as_CartItems (cart (snd r)) = None.
Proof. repeat split. intros H. discriminate H. Qed.

(** The same happens to a NaN quantity, and [-0] comes back as [0]. *)
Example nan_quantity_is_not_restored :
  JSON_clone (item_value (item_of_product shirt nan))
  = JObject [("id"%string, JString "p1"); ("name"%string, JString "Shirt");
             ("price"%string, JNumber 20%float);
             ("description"%string, JString "A cotton shirt");
             ("quantity"%string, JNull)].
Proof. reflexivity. Qed.

Example negative_zero_is_not_restored :
  as_CartItem (JSON_clone (item_value (item_of_product shirt (-0)%float)))
  = Some (item_of_product shirt 0%float) /\
  (1 / quantity (item_of_product shirt (-0)%float))%float = neg_infinity /\
  (1 / quantity (item_of_product shirt 0%float))%float = infinity.
Proof. repeat split. Qed.

(** ** Further facts about the effects and the operations *)

(** X9. Hydration adopts a stored array of entries as it is: no entry is
    checked, so the cart it leaves may hold the same id twice. Nothing is
    logged and the storage is left as it was. *)
Lemma hydration_adopts_array (env : Env)
  (JSON_parse : string -> option jsvalue)
  (storage : gmap string string) (text : string)
  (vs : list jsvalue) (c : list CartItem) :
  has_window env = true -> getItem_throws env = false ->
  storage !! "cart"%string = Some text -> text <> ""%string ->
  JSON_parse text = Some (JArray vs) -> as_CartItems vs = Some c ->
  hydration_effect env JSON_parse (initial storage)
  = (Normal tt, mkWorld c false true storage []).
Proof.
  intros Hwindow Hget Hstored Htext Hparse Hitems.
  apply truthy_true in Htext.
  unfold hydration_effect, try_finally, try_catch, localStorage_getItem,
    window_undefined, bind, ret, initial.
  rewrite Hwindow, Hget.
  cbn [negb localStorage fst snd]. rewrite Hstored, Htext.
  unfold parse, ret. rewrite Hparse.
  cbn [Array_isArray]. unfold setCart_parsed, as_Cart. rewrite Hitems.
  reflexivity.
Qed.

Example hydration_adopts_duplicates :
  cart (snd (hydration_effect browser
               (parse_as "stored"
                  (cart_value [item_of_product shirt 2%float;
                               item_of_product shirt 5%float]))
               (initial {["cart"%string := "stored"%string]})))
  = [item_of_product shirt 2%float; item_of_product shirt 5%float].
Proof. reflexivity. Qed.

(** X10. Without a stored value hydration only marks the load as done. *)
Lemma hydration_without_stored_cart (env : Env)
  (JSON_parse : string -> option jsvalue) (storage : gmap string string) :
  has_window env = true -> getItem_throws env = false ->
  storage !! "cart"%string = None ->
  hydration_effect env JSON_parse (initial storage)
  = (Normal tt, mkWorld [] false true storage []).
Proof.
  intros Hwindow Hget Hstored.
  unfold hydration_effect, try_finally, try_catch, localStorage_getItem,
    window_undefined, bind, ret, initial.
  rewrite Hwindow, Hget.
  cbn [negb localStorage fst snd]. rewrite Hstored. reflexivity.
Qed.

(** Nothing is stored before the first load has completed. *)
Lemma persist_waits_for_load (env : Env) (JSON_stringify : jsvalue -> string)
  (w : World) :
  loaded w = false -> persist_effect env JSON_stringify w = (Normal tt, w).
Proof. intros H. unfold persist_effect. rewrite H. reflexivity. Qed.

(** No exposed operation raises an error to its caller. *)
Lemma perform_returns_normally (env : Env) (c : call) (w : World) :
  fst (perform env c w) = Normal tt.
Proof.
  destruct c as [[p|] | k | k q | | isOpen]; simpl; try reflexivity.
  - unfold addToCart. destruct (truthy (Product.id p)); reflexivity.
  - unfold removeFromCart. destruct (truthy k); reflexivity.
  - unfold updateQuantity, removeFromCart.
    destruct (truthy k); simpl; [| reflexivity].
    destruct (q <=? 0)%float; reflexivity.
  - unfold clearCart, try_catch, localStorage_removeItem. step.
    destruct (window_undefined env); [reflexivity |].
    destruct (removeItem_throws env); reflexivity.
Qed.

(** [updateQuantity] with a quantity that is not [<= 0] writes it into
    every entry with the id and creates none. *)
Lemma updateQuantity_sets (k : string) (q : number) (w : World) :
  k <> ""%string -> (q <=? 0)%float = false ->
  cart (snd (updateQuantity k q w))
  = map (fun item => if (id item =? k)%string then with_quantity item q else item)
      (cart w) /\
  length (cart (snd (updateQuantity k q w))) = length (cart w).
Proof.
  intros Hk Hq. apply truthy_true in Hk.
  unfold updateQuantity. rewrite Hk, Hq. simpl.
  split; [reflexivity | apply length_map].
Qed.

(** * More of the provider *)

(** ** [removeFromCart], [updateQuantity] and [addToCart] together *)

Lemma world_eta (w : World) :
  mkWorld (cart w) (isCartOpen w) (loaded w) (localStorage w) (console w) = w.
Proof. destruct w; reflexivity. Qed.

Lemma filter_absent (k : string) (c : list CartItem) :
  Forall (fun item => id item <> k) c ->
  List.filter (fun item => negb (id item =? k)%string) c = c.
Proof.
  induction 1 as [|item c Hitem _ IH]; simpl; [reflexivity |].
  apply id_eqb_false in Hitem. rewrite Hitem. simpl. f_equal. exact IH.
Qed.

Lemma filter_twice {A : Type} (f g : A -> bool) (l : list A) :
  List.filter f (List.filter g l) = List.filter g (List.filter f l).
Proof.
  induction l as [|x l IH]; simpl; [reflexivity |].
  destruct (f x) eqn:Hf, (g x) eqn:Hg; simpl; rewrite ?Hf, ?Hg, IH; reflexivity.
Qed.

Lemma filter_again {A : Type} (f : A -> bool) (l : list A) :
  List.filter f (List.filter f l) = List.filter f l.
Proof.
  induction l as [|x l IH]; simpl; [reflexivity |].
  destruct (f x) eqn:Hf; simpl; rewrite ?Hf, IH; reflexivity.
Qed.

Lemma set_quantity_absent (k : string) (q : number) (c : list CartItem) :
  Forall (fun item => id item <> k) c ->
  map (fun item => if (id item =? k)%string then with_quantity item q else item) c
  = c.
Proof.
  induction 1 as [|item c Hitem _ IH]; simpl; [reflexivity |].
  apply id_eqb_false in Hitem. rewrite Hitem. f_equal. exact IH.
Qed.

Lemma filter_set_quantity (k : string) (q : number) (c : list CartItem) :
  List.filter (fun item => negb (id item =? k)%string)
    (map (fun item => if (id item =? k)%string then with_quantity item q else item) c)
  = List.filter (fun item => negb (id item =? k)%string) c.
Proof.
  induction c as [|item c IH]; simpl; [reflexivity |].
  destruct (id item =? k)%string eqn:E; simpl; rewrite E; simpl; rewrite IH;
    reflexivity.
Qed.

Lemma set_quantity_twice (k : string) (q1 q2 : number) (c : list CartItem) :
  map (fun item => if (id item =? k)%string then with_quantity item q2 else item)
    (map (fun item => if (id item =? k)%string then with_quantity item q1 else item) c)
  = map (fun item => if (id item =? k)%string then with_quantity item q2 else item) c.
Proof.
  induction c as [|item c IH]; simpl; [reflexivity |].
  rewrite IH. destruct (id item =? k)%string eqn:E; simpl; rewrite E; reflexivity.
Qed.

Lemma removeFromCart_absent (k : string) (w : World) :
  Forall (fun item => id item <> k) (cart w) ->
  removeFromCart k w = (Normal tt, w).
Proof.
  intros Habsent. unfold removeFromCart, ret, setCart.
  destruct (truthy k); simpl; [| reflexivity].
  rewrite (filter_absent k (cart w) Habsent), world_eta. reflexivity.
Qed.

(** X1. Removing an id that no entry has changes nothing at all: the call
    returns normally and the whole state is as before. *)
Theorem removeFromCart_absent_is_noop (k : string) (w : World) :
  Forall (fun item => id item <> k) (cart w) ->
  removeFromCart k w = (Normal tt, w).
Proof. apply removeFromCart_absent. Qed.

(** ["p3"] removed from the cart of a shirt and a mug. *)
Lemma removeFromCart_absent_is_noop_witness :
  removeFromCart "p3" (mkWorld sample_cart true true ∅ [])
  = (Normal tt, mkWorld sample_cart true true ∅ []).
Proof.
  apply (removeFromCart_absent_is_noop "p3" (mkWorld sample_cart true true ∅ [])).
  repeat constructor; discriminate.
Defined.

(** X2. Removing the same id twice is removing it once, and two removals
    can be done in either order. *)
Theorem removeFromCart_idempotent_commutes (k1 k2 : string) (w : World) :
  snd (removeFromCart k1 (snd (removeFromCart k1 w)))
  = snd (removeFromCart k1 w) /\
  snd (removeFromCart k2 (snd (removeFromCart k1 w)))
  = snd (removeFromCart k1 (snd (removeFromCart k2 w))).
Proof.
  unfold removeFromCart, ret, setCart. split.
  - destruct (truthy k1); simpl; [| reflexivity].
    rewrite filter_again. reflexivity.
  - destruct (truthy k1), (truthy k2); simpl; try reflexivity.
    rewrite filter_twice. reflexivity.
Qed.

(** X3. [updateQuantity] never creates an entry: for an id that no entry
    has, it changes nothing, whatever the quantity. *)
Theorem updateQuantity_absent_is_noop (k : string) (q : number) (w : World) :
  Forall (fun item => id item <> k) (cart w) ->
  updateQuantity k q w = (Normal tt, w).
Proof.
  intros Habsent. unfold updateQuantity.
  destruct (truthy k) eqn:Hk; simpl; [| reflexivity].
  destruct (q <=? 0)%float.
  - apply removeFromCart_absent; assumption.
  - unfold setCart. rewrite (set_quantity_absent k q (cart w) Habsent), world_eta.
    reflexivity.
Qed.

(** ["p3"] set to 4 in the cart of a shirt and a mug. *)
Lemma updateQuantity_absent_is_noop_witness :
  updateQuantity "p3" 4%float (mkWorld sample_cart true true ∅ [])
  = (Normal tt, mkWorld sample_cart true true ∅ []).
Proof.
  apply (updateQuantity_absent_is_noop "p3" 4%float
           (mkWorld sample_cart true true ∅ [])).
  repeat constructor; discriminate.
Defined.

(** X4. The last [updateQuantity] wins: after a first update of an id with
    a quantity that is not [<= 0], a second update of the same id, with any
    quantity, leaves the state the second update alone would leave. *)
Theorem updateQuantity_last_wins (k : string) (q1 q2 : number) (w : World) :
  (q1 <=? 0)%float = false ->
  snd (updateQuantity k q2 (snd (updateQuantity k q1 w)))
  = snd (updateQuantity k q2 w).
Proof.
  intros Hq1. unfold updateQuantity, removeFromCart, ret, setCart.
  destruct (truthy k) eqn:Hk; simpl; [| reflexivity].
  rewrite Hq1. destruct (q2 <=? 0)%float; simpl.
  - rewrite filter_set_quantity. reflexivity.
  - rewrite set_quantity_twice. reflexivity.
Qed.

(** The shirt's quantity set to 3, then to 7. *)
Lemma updateQuantity_last_wins_witness :
  snd (updateQuantity "p1" 7%float
         (snd (updateQuantity "p1" 3%float (mkWorld sample_cart true true ∅ []))))
  = snd (updateQuantity "p1" 7%float (mkWorld sample_cart true true ∅ [])).
Proof.
  apply (updateQuantity_last_wins "p1" 3%float 7%float). reflexivity.
Defined.

(** X5. [updateQuantity] with a non-empty id and a quantity that is not
    [<= 0] changes quantities only: the ids, names, prices, descriptions
    and images of the cart, in order, are as before, an entry with the id
    gets the quantity, every other entry keeps its own, and nothing but the
    cart changes. *)
Theorem updateQuantity_changes_only_quantity (k : string) (q : number)
  (w : World) :
  k <> ""%string -> (q <=? 0)%float = false ->
  fst (updateQuantity k q w) = Normal tt /\
  map id (cart (snd (updateQuantity k q w))) = map id (cart w) /\
  map name (cart (snd (updateQuantity k q w))) = map name (cart w) /\
  map price (cart (snd (updateQuantity k q w))) = map price (cart w) /\
  map description (cart (snd (updateQuantity k q w)))
  = map description (cart w) /\
  map image (cart (snd (updateQuantity k q w))) = map image (cart w) /\
  map quantity (cart (snd (updateQuantity k q w)))
  = map (fun item => if (id item =? k)%string then q else quantity item)
      (cart w) /\
  isCartOpen (snd (updateQuantity k q w)) = isCartOpen w /\
  loaded (snd (updateQuantity k q w)) = loaded w /\
  localStorage (snd (updateQuantity k q w)) = localStorage w /\
  console (snd (updateQuantity k q w)) = console w.
Proof.
  intros Hk Hq. apply truthy_true in Hk.
  unfold updateQuantity. rewrite Hk, Hq. simpl.
  repeat split;
    induction (cart w) as [|item c IH]; simpl; try reflexivity;
    rewrite IH; destruct (id item =? k)%string; reflexivity.
Qed.

(** The mug's quantity set to 2.5. *)
Lemma updateQuantity_changes_only_quantity_witness :
  map quantity
    (cart (snd (updateQuantity "p2" 2.5%float
                  (mkWorld sample_cart true true ∅ []))))
  = map (fun item => if (id item =? "p2")%string then 2.5%float else quantity item)
      sample_cart.
Proof.
  apply (updateQuantity_changes_only_quantity "p2" 2.5%float
           (mkWorld sample_cart true true ∅ [])).
  - discriminate.
  - reflexivity.
Defined.

(** X6. Adding a product with a non-empty id that no entry has, then
    removing that id, gives back the cart as it was. *)
Theorem add_then_remove (p : Product.t) (w : World) :
  Product.id p <> ""%string ->
  Forall (fun item => id item <> Product.id p) (cart w) ->
  cart (snd (removeFromCart (Product.id p) (snd (addToCart (Some p) w))))
  = cart w.
Proof.
  intros Hid Habsent. apply truthy_true in Hid.
  rewrite (addToCart_new p w Hid).
  - unfold removeFromCart. rewrite Hid. simpl.
    rewrite List.filter_app, (filter_absent _ _ Habsent). simpl.
    rewrite String.eqb_refl. simpl. apply app_nil_r.
  - eapply Forall_impl; [exact Habsent |]. intros item. apply id_eqb_false.
Qed.

(** The mug added to a cart that holds a shirt, then removed. *)
Lemma add_then_remove_witness :
  cart (snd (removeFromCart "p2"
               (snd (addToCart (Some mug)
                       (mkWorld [item_of_product shirt 2%float] false true ∅ [])))))
  = [item_of_product shirt 2%float].
Proof.
  apply (add_then_remove mug
           (mkWorld [item_of_product shirt 2%float] false true ∅ [])).
  - discriminate.
  - repeat constructor; discriminate.
Defined.

(** X7. Adding twice a product with a non-empty id that no entry has gives
    one new entry, with quantity 2, after the entries of the cart. *)
Theorem add_twice_gives_quantity_two (p : Product.t) (w : World) :
  Product.id p <> ""%string ->
  Forall (fun item => id item <> Product.id p) (cart w) ->
  cart (snd (addToCart (Some p) (snd (addToCart (Some p) w))))
  = cart w ++ [item_of_product p 2%float].
Proof.
  intros Hid Habsent. apply truthy_true in Hid.
  assert (Hnone : Forall (fun item => (id item =? Product.id p)%string = false)
                    (cart w)).
  { eapply Forall_impl; [exact Habsent |]. intros item. apply id_eqb_false. }
  rewrite (addToCart_new p w Hid Hnone). cbn [snd].
  rewrite (addToCart_existing p
             (mkWorld (cart w ++ [item_of_product p 1%float]) true (loaded w)
                (localStorage w) (console w))
             (cart w) (item_of_product p 1%float) [] Hid eq_refl Hnone).
  - reflexivity.
  - simpl. apply String.eqb_refl.
Qed.

(** The mug added twice to a cart that holds a shirt. *)
Lemma add_twice_gives_quantity_two_witness :
  cart (snd (addToCart (Some mug)
               (snd (addToCart (Some mug)
                       (mkWorld [item_of_product shirt 2%float] false true ∅ [])))))
  = [item_of_product shirt 2%float] ++ [item_of_product mug 2%float].
Proof.
  apply (add_twice_gives_quantity_two mug
           (mkWorld [item_of_product shirt 2%float] false true ∅ [])).
  - discriminate.
  - repeat constructor; discriminate.
Defined.

(** X8. Adding a product with a non-empty id that no entry has raises
    [totalItems] by 1 and [totalPrice] by the product's price (times 1), in
    [number] arithmetic. *)
Theorem totals_after_adding_new (p : Product.t) (w : World) :
  Product.id p <> ""%string ->
  Forall (fun item => id item <> Product.id p) (cart w) ->
  totalItems (cart (snd (addToCart (Some p) w)))
  = (totalItems (cart w) + 1)%float /\
  totalPrice (cart (snd (addToCart (Some p) w)))
  = (totalPrice (cart w) + Product.price p * 1)%float.
Proof.
  intros Hid Habsent. apply truthy_true in Hid.
  rewrite (addToCart_new p w Hid).
  - unfold totalItems, totalPrice, reduce. simpl.
    rewrite !fold_left_app. split; reflexivity.
  - eapply Forall_impl; [exact Habsent |]. intros item. apply id_eqb_false.
Qed.

(** The mug (price 5) added to the cart of two shirts (price 20). *)
Lemma totals_after_adding_new_witness :
  totalItems
    (cart (snd (addToCart (Some mug)
                  (mkWorld [item_of_product shirt 2%float] false true ∅ []))))
  = (totalItems [item_of_product shirt 2%float] + 1)%float.
Proof.
  apply (totals_after_adding_new mug
           (mkWorld [item_of_product shirt 2%float] false true ∅ [])).
  - discriminate.
  - repeat constructor; discriminate.
Defined.

(** ** The effects *)

(** A stored array with the same id twice, adopted as it is. *)
Lemma hydration_adopts_array_witness :
  hydration_effect browser
    (parse_as "stored"
       (cart_value [item_of_product shirt 2%float; item_of_product shirt 5%float]))
    (initial {["cart"%string := "stored"%string]})
  = (Normal tt,
     mkWorld [item_of_product shirt 2%float; item_of_product shirt 5%float]
       false true {["cart"%string := "stored"%string]} []).
Proof.
  apply (hydration_adopts_array browser _ _ "stored"
           (map item_value
              [item_of_product shirt 2%float; item_of_product shirt 5%float])).
  - reflexivity.
  - reflexivity.
  - apply lookup_singleton_eq.
  - discriminate.
  - reflexivity.
  - reflexivity.
Defined.

(** A storage that holds nothing. *)
Lemma hydration_without_stored_cart_witness :
  hydration_effect browser parse_nothing (initial ∅)
  = (Normal tt, mkWorld [] false true ∅ []).
Proof.
  apply (hydration_without_stored_cart browser parse_nothing ∅).
  - reflexivity.
  - reflexivity.
  - apply lookup_empty.
Defined.

(** X11. Hydration never raises an error, whatever the storage holds and
    whichever storage operations throw; with a [window] it always marks the
    load as done, without one it does nothing. It never opens the cart
    panel and never touches a key of the storage other than ["cart"]. *)
Theorem hydration_is_contained (env : Env)
  (JSON_parse : string -> option jsvalue) (storage : gmap string string) :
  let r := hydration_effect env JSON_parse (initial storage) in
  (forall e, fst r <> Throws e) /\
  loaded (snd r) = has_window env /\
  isCartOpen (snd r) = false /\
  (forall k, k <> "cart"%string -> localStorage (snd r) !! k = storage !! k) /\
  (has_window env = false -> snd r = initial storage).
Proof.
  unfold hydration_effect, try_finally, try_catch, localStorage_getItem,
    localStorage_removeItem, window_undefined, parse, setCart_parsed, setLoaded,
    initial.
  step. destruct env as [window getThrows setThrows removeThrows]. simpl.
  destruct window; simpl; [| repeat split; intros; discriminate].
  destruct getThrows; simpl.
  - destruct removeThrows; simpl; repeat split; intros; try discriminate.
    apply lookup_delete_ne. congruence.
  - destruct (storage !! "cart"%string) as [text|]; simpl;
      [| repeat split; intros; discriminate].
    destruct (truthy text); simpl; [| repeat split; intros; discriminate].
    destruct (JSON_parse text) as [v|]; simpl.
    + destruct (Array_isArray v); simpl.
      * destruct (as_Cart v); simpl; repeat split; intros; discriminate.
      * destruct removeThrows; simpl; repeat split; intros; try discriminate.
        apply lookup_delete_ne. congruence.
    + destruct removeThrows; simpl; repeat split; intros; try discriminate.
      apply lookup_delete_ne. congruence.
Qed.

(** X12. When reading the storage throws, hydration logs the failure and
    tries to erase the key: it returns normally with the cart empty and the
    load marked as done, a cart that was stored is erased when [removeItem]
    works, and a second failure is logged when it throws too. *)
Theorem hydration_read_failure (env : Env)
  (JSON_parse : string -> option jsvalue) (storage : gmap string string) :
  has_window env = true -> getItem_throws env = true ->
  let r := hydration_effect env JSON_parse (initial storage) in
  fst r = Normal tt /\ cart (snd r) = [] /\ loaded (snd r) = true /\
  (removeItem_throws env = false ->
   localStorage (snd r) = delete "cart"%string storage /\
   console (snd r) =
     [("Fehler beim Laden des Warenkorbs:"%string,
       Some (DOMException "getItem"))]) /\
  (removeItem_throws env = true ->
   localStorage (snd r) = storage /\
   console (snd r) =
     [("Fehler beim Laden des Warenkorbs:"%string,
       Some (DOMException "getItem"));
      ("Fehler beim Zurücksetzen des localStorage:"%string,
       Some (DOMException "removeItem"))]).
Proof.
  intros Hwindow Hget.
  unfold hydration_effect, try_finally, try_catch, localStorage_getItem,
    localStorage_removeItem, window_undefined, setLoaded, initial.
  step. rewrite Hwindow, Hget. simpl.
  destruct (removeItem_throws env); simpl; repeat split; intros; discriminate.
Qed.

(** A storage that cannot be read but can be erased, holding a cart. *)
Lemma hydration_read_failure_witness :
  let r := hydration_effect (mkEnv true true false false) parse_nothing
             (initial {["cart"%string := sample_text]}) in
  fst r = Normal tt /\ cart (snd r) = [] /\
  localStorage (snd r) = delete "cart"%string {["cart"%string := sample_text]}.
Proof.
  destruct (hydration_read_failure (mkEnv true true false false) parse_nothing
              {["cart"%string := sample_text]} eq_refl eq_refl)
    as (H1 & H2 & _ & H3 & _).
  intros r. split; [exact H1 | split; [exact H2 | apply H3; reflexivity]].
Defined.

(** X13. The persist effect is best effort and touches the key ["cart"]
    only: it returns normally and leaves the cart, [isCartOpen], [loaded]
    and every other key as they are. After the first load, with a storage
    that takes the write, the key holds the encoding of the cart and nothing
    is logged; when the write throws, the storage is as before and the
    failure is logged. *)
Theorem persist_is_best_effort (env : Env) (JSON_stringify : jsvalue -> string)
  (w : World) :
  let w' := snd (persist_effect env JSON_stringify w) in
  fst (persist_effect env JSON_stringify w) = Normal tt /\
  cart w' = cart w /\ isCartOpen w' = isCartOpen w /\ loaded w' = loaded w /\
  (forall k, k <> "cart"%string -> localStorage w' !! k = localStorage w !! k) /\
  (loaded w = true -> has_window env = true -> setItem_throws env = false ->
   localStorage w' = <["cart"%string := JSON_stringify (cart_value (cart w))]>
                       (localStorage w) /\
   console w' = console w) /\
  (loaded w = true -> has_window env = true -> setItem_throws env = true ->
   localStorage w' = localStorage w /\
   console w' =
     console w
       ++ [("Fehler beim Speichern des Warenkorbs:"%string,
            Some (DOMException "setItem"))]).
Proof.
  destruct w as [c isOpen isLoaded store log].
  unfold persist_effect, try_catch, localStorage_setItem, window_undefined.
  step. destruct env as [window getThrows setThrows removeThrows]. simpl.
  destruct isLoaded, window, setThrows; simpl; repeat split; intros;
    try discriminate; try reflexivity.
  apply lookup_insert_ne. congruence.
Qed.




(** ** The exposed operations, all together *)

(** X15. No exposed operation changes [loaded], none touches a key of the
    storage other than ["cart"], and only [clearCart] touches the storage
    at all: the others leave persisting to the effect. *)
Theorem operations_leave_storage_to_the_effects (env : Env) (c : call)
  (w : World) :
  loaded (snd (perform env c w)) = loaded w /\
  (forall k, k <> "cart"%string ->
     localStorage (snd (perform env c w)) !! k = localStorage w !! k) /\
  (c <> ClearCart -> localStorage (snd (perform env c w)) = localStorage w).
Proof.
  destruct c as [[p|] | k | k q | | isOpen]; simpl.
  - unfold addToCart. destruct (truthy (Product.id p)); repeat split.
  - repeat split.
  - unfold removeFromCart. destruct (truthy k); repeat split.
  - unfold updateQuantity, removeFromCart.
    destruct (truthy k); simpl; [| repeat split].
    destruct (q <=? 0)%float; repeat split.
  - unfold clearCart, try_catch, localStorage_removeItem. step.
    destruct (window_undefined env); simpl; [repeat split; congruence |].
    destruct (removeItem_throws env); simpl; repeat split; try congruence.
    intros k Hk. apply lookup_delete_ne. congruence.
  - repeat split.
Qed.

(** X16. No sequence of calls of the exposed operations raises an error,
    in any state and with any storage failing: every call returns normally
    and the sequence runs to its end. *)
Theorem run_returns_normally (env : Env) (calls : list call) :
  forall w : World, fst (run env calls w) = Normal tt.
Proof.
  induction calls as [|c calls IH]; intros w; simpl; [reflexivity |].
  unfold bind. pose proof (perform_returns_normally env c w) as Hc.
  destruct (perform env c w) as [[[]|e|] w']; simpl in Hc;
    try discriminate.
  apply IH.
Qed.

(** X17. The exposed operations keep a well-formed cart well-formed from
    any state, not only from the empty cart: when no two entries share an
    id and no quantity is [<= 0] (as in a cart hydrated from what an earlier
    session stored), the same holds after every sequence of calls. *)
Theorem operations_keep_cart_well_formed (env : Env) (calls : list call)
  (w : World) :
  NoDup (map id (cart w)) ->
  Forall (fun item => (quantity item <=? 0)%float = false) (cart w) ->
  NoDup (map id (cart (snd (run env calls w)))) /\
  Forall (fun item => (quantity item <=? 0)%float = false)
    (cart (snd (run env calls w))).
Proof. intros Hu Hq. apply (run_preserves env calls w Hu Hq). Qed.

(** The cart of two shirts and a mug, then a shirt added, the mug set to 3
    and the shirts removed. *)
Lemma operations_keep_cart_well_formed_witness :
  NoDup (map id
           (cart (snd (run browser
                         [AddToCart (Some shirt); UpdateQuantity "p2" 3%float;
                          RemoveFromCart "p1"]
                         (mkWorld sample_cart false true ∅ []))))).
Proof.
  apply (operations_keep_cart_well_formed browser
           [AddToCart (Some shirt); UpdateQuantity "p2" 3%float;
            RemoveFromCart "p1"]
           (mkWorld sample_cart false true ∅ [])).
  - repeat constructor; rewrite ?elem_of_cons, ?elem_of_nil; intuition discriminate.
  - repeat constructor.
Defined.
